(** * The system information plugin for Auto-GPT

    A shallow embedding of [src/system_information_plugin/__init__.py]:
    the class [SystemInformationPlugin], its prompt hook [post_prompt],
    its lifecycle stubs and the routine [get_system_info], followed by the
    properties the specification states about them.

    Python values are immutable scalars or references into a heap of
    mutable objects; a method is a computation over the world (the host
    operating system that answers the [platform] and [distro] queries,
    and the heap) that either returns a value or raises. *)

From stdpp Require Import base strings list gmap.

Local Open Scope string_scope.

(** ** Exceptions and outcomes *)

(** The exceptions the module can meet.  [IndexError] comes from indexing
    a tuple out of range, [UnboundLocalError] from reading a local
    variable that was never assigned, [AttributeError] from calling a
    method the receiver does not have; [HostError] stands for whatever a
    failing operating-system query raises, tagged with its class name. *)
Inductive exn : Type :=
  | IndexError
  | UnboundLocalError (name : string)
  | AttributeError (name : string)
  | HostError (cls : string).

Inductive outcome (A : Type) : Type :=
  | Return (a : A)
  | Raise (e : exn).

Arguments Return {A} a.
Arguments Raise {A} e.

Global Instance exn_eq_dec : EqDecision exn.
Proof. solve_decision. Defined.

Global Instance outcome_eq_dec `{EqDecision A} : EqDecision (outcome A).
Proof. solve_decision. Defined.

(** ** Values and heap objects *)

Abbreviation loc := positive.

(** Immutable Python values, and references to mutable objects. *)
Inductive value : Type :=
  | VNone
  | VBool (b : bool)
  | VInt (z : Z)
  | VFloat (bits : Z)
  | VStr (s : string)
  | VRef (l : loc).

Global Instance value_eq_dec : EqDecision value.
Proof. solve_decision. Defined.

(** The attributes [__init__] stores on the plugin instance. *)
Record SystemInformationPlugin : Type := {
  _name : string;
  _version : string;
  _description : string
}.

(** Modelled from the spec: the prompt class of the host framework is not
    part of this repository.  The spec calls it an accumulating
    text/resource context object to which [post_prompt] appends a string:
    [add_resource] appends to the list [resources]; whatever else the
    object holds is kept in [attributes], which [add_resource] leaves
    alone. *)
Record PromptGenerator : Type := {
  resources : list string;
  attributes : list (string * list string)
}.

Inductive object : Type :=
  | PluginObj (p : SystemInformationPlugin)
  | PromptObj (p : PromptGenerator)
  | ListObj (items : list value)
  | DictObj (items : list (value * value)).

(** ** The host operating system *)

(** What the operating-system queries answer on one host.  The queries
    are read-only, and [platform] caches what it learns, so a host gives
    the same answer each time it is asked during a call.

    - [platform.architecture()] is a pair (bits, linkage);
    - [platform.system()], [distro.name()], [distro.version()] and
      [distro.id()] are strings;
    - [platform.win32_ver()] is a tuple of strings.  The standard library
      returns four of them (release, version, csd, ptype); the length is
      left free here so that a host simulated by a test double, which may
      supply more, is covered as well;
    - [platform.mac_ver()] is (release, versioninfo, machine), where
      versioninfo is itself a triple of strings. *)
Record Host : Type := {
  os_architecture : outcome (string * string);
  os_system : outcome string;
  os_distro_name : outcome string;
  os_distro_version : outcome string;
  os_distro_id : outcome string;
  os_win32_ver : outcome (list string);
  os_mac_ver : outcome (string * (string * string * string) * string)
}.

Record world : Type := {
  host : Host;
  heap : gmap loc object
}.

(** ** Computations *)

Definition M (A : Type) : Type := world → outcome A * world.

Global Instance M_ret : MRet M := λ A a w, (Return a, w).

Global Instance M_bind : MBind M := λ A B f m w,
  match m w with
  | (Return a, w') => f a w'
  | (Raise e, w') => (Raise e, w')
  end.

Definition raise {A : Type} (e : exn) : M A := λ w, (Raise e, w).

(** An operating-system query: read the answer off the host. *)
Definition query {A : Type} (q : Host → outcome A) : M A :=
  λ w, (q (host w), w).

Definition get_heap : M (gmap loc object) := λ w, (Return (heap w), w).

Definition put_heap (h : gmap loc object) : M unit :=
  λ w, (Return tt, {| host := host w; heap := h |}).

Module platform.
Definition architecture : M (string * string) := query os_architecture.
Definition system : M string := query os_system.
Definition win32_ver : M (list string) := query os_win32_ver.
Definition mac_ver : M (string * (string * string * string) * string) :=
  query os_mac_ver.
End platform.

Module distro.
Definition name : M string := query os_distro_name.
Definition version : M string := query os_distro_version.
Definition id : M string := query os_distro_id.
End distro.

(** ** Python primitives used by the module *)

(** [t[i]] on a tuple, for a literal index [i >= 0]. *)
Definition getitem (t : list string) (i : nat) : M string :=
  match t !! i with
  | Some x => mret x
  | None => raise IndexError
  end.

(** Truth value of a local that holds a string or [None]. *)
Definition truthy (v : option string) : bool :=
  match v with
  | Some (String _ _) => true
  | Some EmptyString => false
  | None => false
  end.

(** [f"{v}"] for a local that holds a string or [None]. *)
Definition format (v : option string) : string :=
  match v with
  | Some s => s
  | None => "None"
  end.

(** Reading a local variable: it raises when the variable was never
    assigned on the path taken. *)
Definition load_local (name : string) (slot : option string) : M string :=
  match slot with
  | Some s => mret s
  | None => raise (UnboundLocalError name)
  end.

(** ** [get_system_info] *)

Definition get_system_info (self : value) : M string :=
  (* arch = platform.architecture()[0] *)
  arch_linkage ← platform.architecture;
  let arch := arch_linkage.1 in
  (* Linux distribution *)
  system ← platform.system;
  distro_info ←
    (if String.eqb system "Linux" then
       distro_name ← distro.name;
       distro_version ← distro.version;
       distro_id ← distro.id;
       mret (Some (distro_name +:+ " " +:+ distro_version
                     +:+ " (" +:+ distro_id +:+ ")"))
     else mret None);
  (* Windows version *)
  system ← platform.system;
  win_version ←
    (if String.eqb system "Windows" then
       win_ver ← platform.win32_ver;
       win_ver_0 ← getitem win_ver 0;
       win_ver_1 ← getitem win_ver 1;
       win_ver_4 ← getitem win_ver 4;
       mret (Some (win_ver_0 +:+ " " +:+ win_ver_1 +:+ " " +:+ win_ver_4))
     else mret None);
  (* macOS version *)
  system ← platform.system;
  mac_version ←
    (if String.eqb system "Darwin" then
       mac_ver ← platform.mac_ver;
       let '(mac_ver_0, _, mac_ver_2) := mac_ver in
       mret (Some (mac_ver_0 +:+ " " +:+ mac_ver_2))
     else mret None);
  (* build the prompt; [os_info] starts out unbound *)
  let os_info : option string := None in
  let os_info :=
    if truthy distro_info
    then Some ("Linux " +:+ arch +:+ " " +:+ format distro_info)
    else os_info in
  let os_info :=
    if truthy win_version
    then Some ("Windows " +:+ format win_version)
    else os_info in
  let os_info :=
    if truthy mac_version
    then Some ("macOS " +:+ format mac_version)
    else os_info in
  load_local "os_info" os_info.

(** ** The plugin class *)

(** [__init__]: after the template's own initialiser, the three
    attributes are stored on the instance. *)
Definition __init__ (self : value) : M value :=
  match self with
  | VRef l =>
      h ← get_heap;
      put_heap (<[l := PluginObj {|
                  _name := "Auto-GPT-Plugin-SystemInfo";
                  _version := "0.1.0";
                  _description := "This is system info plugin for Auto-GPT."
                |}]> h);;
      mret VNone
  | _ => raise (AttributeError "_name")
  end.

(** [prompt.add_resource(resource)]: the receiver is looked up in the
    heap; an object that is not a prompt has no such method. *)
Definition add_resource (prompt : value) (resource : string) : M value :=
  match prompt with
  | VRef l =>
      h ← get_heap;
      match h !! l with
      | Some (PromptObj p) =>
          put_heap (<[l := PromptObj {|
                      resources := resources p ++ [resource];
                      attributes := attributes p
                    |}]> h);;
          mret VNone
      | _ => raise (AttributeError "add_resource")
      end
  | _ => raise (AttributeError "add_resource")
  end.

Definition post_prompt (self : value) (prompt : value) : M value :=
  os_info ← get_system_info self;
  (if truthy (Some os_info)
   then add_resource prompt ("Shell commands executed on " +:+ os_info)
   else mret VNone);;
  mret prompt.

Definition can_handle_post_prompt (self : value) : M value :=
  mret (VBool true).

Definition can_handle_on_response (self : value) : M value :=
  mret (VBool false).

(** A body that is only [pass] returns [None]. *)
Definition on_response (self : value) (response : value)
    (args : list value) (kwargs : list (string * value)) : M value :=
  mret VNone.

Definition can_handle_on_planning (self : value) : M value :=
  mret (VBool false).

Definition on_planning (self : value) (prompt : value) (messages : value)
    : M value :=
  mret VNone.

Definition can_handle_post_planning (self : value) : M value :=
  mret (VBool false).

Definition post_planning (self : value) (response : value) : M value :=
  mret VNone.

Definition can_handle_pre_instruction (self : value) : M value :=
  mret (VBool false).

Definition pre_instruction (self : value) (messages : value) : M value :=
  mret VNone.

Definition can_handle_on_instruction (self : value) : M value :=
  mret (VBool false).

Definition on_instruction (self : value) (messages : value) : M value :=
  mret VNone.

Definition can_handle_post_instruction (self : value) : M value :=
  mret (VBool false).

Definition post_instruction (self : value) (response : value) : M value :=
  mret VNone.

Definition can_handle_pre_command (self : value) : M value :=
  mret (VBool false).

Definition pre_command (self : value) (command_name : value)
    (arguments : value) : M value :=
  mret VNone.

Definition can_handle_post_command (self : value) : M value :=
  mret (VBool false).

Definition post_command (self : value) (command_name : value)
    (response : value) : M value :=
  mret VNone.

Definition can_handle_chat_completion (self : value) (messages : value)
    (model : value) (temperature : value) (max_tokens : value) : M value :=
  mret (VBool false).

Definition handle_chat_completion (self : value) (messages : value)
    (model : value) (temperature : value) (max_tokens : value) : M value :=
  mret VNone.

(** ** Substrings *)

(** [needle in hay], as a proposition and as a test. *)
Definition contains (needle hay : string) : Prop :=
  ∃ pre post, hay = pre +:+ needle +:+ post.

Fixpoint prefixb (p s : string) : bool :=
  match p, s with
  | EmptyString, _ => true
  | String a p', String b s' => if Ascii.eqb a b then prefixb p' s' else false
  | String _ _, EmptyString => false
  end.

Fixpoint containsb (needle hay : string) : bool :=
  prefixb needle hay ||
  match hay with
  | EmptyString => false
  | String _ hay' => containsb needle hay'
  end.

(** ** Simulated hosts *)

Definition no_answer {A : Type} : outcome A := Raise (HostError "OSError").

Definition linux_host : Host := {|
  os_architecture := Return ("64bit", "ELF");
  os_system := Return "Linux";
  os_distro_name := Return "Ubuntu";
  os_distro_version := Return "22.04";
  os_distro_id := Return "ubuntu";
  os_win32_ver := Return [EmptyString; EmptyString; EmptyString; EmptyString];
  os_mac_ver :=
    Return (EmptyString, (EmptyString, EmptyString, EmptyString), EmptyString)
|}.

(** A Windows host as the standard library reports it: four fields. *)
Definition windows_host : Host := {|
  os_architecture := Return ("64bit", "WindowsPE");
  os_system := Return "Windows";
  os_distro_name := Return EmptyString;
  os_distro_version := Return EmptyString;
  os_distro_id := Return EmptyString;
  os_win32_ver := Return ["10"; "10.0.19045"; "SP0"; "Multiprocessor Free"];
  os_mac_ver :=
    Return (EmptyString, (EmptyString, EmptyString, EmptyString), EmptyString)
|}.

(** A Windows host simulated with a five-field version tuple. *)
Definition windows_host_5 : Host := {|
  os_architecture := Return ("64bit", "WindowsPE");
  os_system := Return "Windows";
  os_distro_name := Return EmptyString;
  os_distro_version := Return EmptyString;
  os_distro_id := Return EmptyString;
  os_win32_ver :=
    Return ["10"; "10.0.19045"; "SP0"; "Multiprocessor Free"; "Professional"];
  os_mac_ver :=
    Return (EmptyString, (EmptyString, EmptyString, EmptyString), EmptyString)
|}.

Definition macos_host : Host := {|
  os_architecture := Return ("64bit", EmptyString);
  os_system := Return "Darwin";
  os_distro_name := Return "Darwin";
  os_distro_version := Return "22.5.0";
  os_distro_id := Return "darwin";
  os_win32_ver := Return [EmptyString; EmptyString; EmptyString; EmptyString];
  os_mac_ver := Return ("13.4", (EmptyString, EmptyString, EmptyString), "arm64")
|}.

Definition freebsd_host : Host := {|
  os_architecture := Return ("64bit", "ELF");
  os_system := Return "FreeBSD";
  os_distro_name := Return "FreeBSD";
  os_distro_version := Return "13.2";
  os_distro_id := Return "freebsd";
  os_win32_ver := Return [EmptyString; EmptyString; EmptyString; EmptyString];
  os_mac_ver :=
    Return (EmptyString, (EmptyString, EmptyString, EmptyString), EmptyString)
|}.

(** A Linux host on which every distribution field is empty. *)
Definition blank_linux_host : Host := {|
  os_architecture := Return (EmptyString, EmptyString);
  os_system := Return "Linux";
  os_distro_name := Return EmptyString;
  os_distro_version := Return EmptyString;
  os_distro_id := Return EmptyString;
  os_win32_ver := Return [EmptyString; EmptyString; EmptyString; EmptyString];
  os_mac_ver :=
    Return (EmptyString, (EmptyString, EmptyString, EmptyString), EmptyString)
|}.

(** A macOS host on which every version field is empty. *)
Definition blank_macos_host : Host := {|
  os_architecture := Return (EmptyString, EmptyString);
  os_system := Return "Darwin";
  os_distro_name := Return EmptyString;
  os_distro_version := Return EmptyString;
  os_distro_id := Return EmptyString;
  os_win32_ver := Return [EmptyString; EmptyString; EmptyString; EmptyString];
  os_mac_ver :=
    Return (EmptyString, (EmptyString, EmptyString, EmptyString), EmptyString)
|}.

(** A host on which the architecture query fails. *)
Definition broken_host : Host := {|
  os_architecture := no_answer;
  os_system := Return "Linux";
  os_distro_name := Return "Ubuntu";
  os_distro_version := Return "22.04";
  os_distro_id := Return "ubuntu";
  os_win32_ver := no_answer;
  os_mac_ver := no_answer
|}.

Definition a_plugin : object := PluginObj {|
  _name := "Auto-GPT-Plugin-SystemInfo";
  _version := "0.1.0";
  _description := "This is system info plugin for Auto-GPT."
|}.

Definition a_prompt : PromptGenerator := {|
  resources := ["Internet access for searches and information gathering."];
  attributes := [("constraints", ["No user assistance"])]
|}.

(** A world with the plugin at location 1 and a prompt at location 2. *)
Definition world_on (h : Host) : world := {|
  host := h;
  heap := <[1%positive := a_plugin]> (<[2%positive := PromptObj a_prompt]> ∅)
|}.

(** A host answers when none of its queries raises. *)
Definition is_Return {A : Type} (o : outcome A) : Prop :=
  match o with
  | Return _ => True
  | Raise _ => False
  end.

Definition answers (h : Host) : Prop :=
  is_Return (os_architecture h) ∧ is_Return (os_system h) ∧
  is_Return (os_distro_name h) ∧ is_Return (os_distro_version h) ∧
  is_Return (os_distro_id h) ∧ is_Return (os_win32_ver h) ∧
  is_Return (os_mac_ver h).

(** A computation reads the host when its result is a function of the
    host alone and it leaves the world as it found it. *)
Definition reads_host {A : Type} (m : M A) : Prop :=
  ∀ w, m w = ((m {| host := host w; heap := ∅ |}).1, w).

(** The result of [get_system_info] on a host, whatever the heap and the
    receiver. *)
Definition system_info_on (h : Host) : outcome string :=
  (get_system_info VNone {| host := h; heap := ∅ |}).1.

(** ** The paths through [get_system_info] *)

(** One constructor per way through [get_system_info] on a host: the
    queries are asked in the order architecture, system, then those of
    the host's own family, and the first one that fails ends the call;
    otherwise the family decides what is assembled, or that nothing
    is. *)
Inductive system_info_path (h : Host) : outcome string → Prop :=
  | path_architecture_fails e :
      os_architecture h = Raise e →
      system_info_path h (Raise e)
  | path_system_fails a e :
      os_architecture h = Return a →
      os_system h = Raise e →
      system_info_path h (Raise e)
  | path_distro_name_fails a e :
      os_architecture h = Return a →
      os_system h = Return "Linux" →
      os_distro_name h = Raise e →
      system_info_path h (Raise e)
  | path_distro_version_fails a name e :
      os_architecture h = Return a →
      os_system h = Return "Linux" →
      os_distro_name h = Return name →
      os_distro_version h = Raise e →
      system_info_path h (Raise e)
  | path_distro_id_fails a name version e :
      os_architecture h = Return a →
      os_system h = Return "Linux" →
      os_distro_name h = Return name →
      os_distro_version h = Return version →
      os_distro_id h = Raise e →
      system_info_path h (Raise e)
  | path_linux a name version id :
      os_architecture h = Return a →
      os_system h = Return "Linux" →
      os_distro_name h = Return name →
      os_distro_version h = Return version →
      os_distro_id h = Return id →
      system_info_path h
        (Return ("Linux " +:+ a.1 +:+ " " +:+ name +:+ " " +:+ version
                   +:+ " (" +:+ id +:+ ")"))
  | path_win32_ver_fails a e :
      os_architecture h = Return a →
      os_system h = Return "Windows" →
      os_win32_ver h = Raise e →
      system_info_path h (Raise e)
  | path_windows_short a win_ver :
      os_architecture h = Return a →
      os_system h = Return "Windows" →
      os_win32_ver h = Return win_ver →
      (length win_ver ≤ 4)%nat →
      system_info_path h (Raise IndexError)
  | path_windows a win_ver f0 f1 f4 :
      os_architecture h = Return a →
      os_system h = Return "Windows" →
      os_win32_ver h = Return win_ver →
      win_ver !! 0 = Some f0 → win_ver !! 1 = Some f1 →
      win_ver !! 4 = Some f4 →
      system_info_path h
        (Return ("Windows " +:+ f0 +:+ " " +:+ f1 +:+ " " +:+ f4))
  | path_mac_ver_fails a e :
      os_architecture h = Return a →
      os_system h = Return "Darwin" →
      os_mac_ver h = Raise e →
      system_info_path h (Raise e)
  | path_macos a release versioninfo machine :
      os_architecture h = Return a →
      os_system h = Return "Darwin" →
      os_mac_ver h = Return (release, versioninfo, machine) →
      system_info_path h (Return ("macOS " +:+ release +:+ " " +:+ machine))
  | path_unrecognized a sys :
      os_architecture h = Return a →
      os_system h = Return sys →
      sys ≠ "Linux" → sys ≠ "Windows" → sys ≠ "Darwin" →
      system_info_path h (Raise (UnboundLocalError "os_info")).

(** A value is a prompt in a world when it refers to a prompt object. *)
Definition is_prompt (w : world) (v : value) : Prop :=
  ∃ l p, v = VRef l ∧ heap w !! l = Some (PromptObj p).

(** A Linux host on which the Windows and macOS queries would fail. *)
Definition bare_linux_host : Host := {|
  os_architecture := Return ("64bit", "ELF");
  os_system := Return "Linux";
  os_distro_name := Return "Ubuntu";
  os_distro_version := Return "22.04";
  os_distro_id := Return "ubuntu";
  os_win32_ver := no_answer;
  os_mac_ver := no_answer
|}.

(** A Linux host on which [distro.version()] fails. *)
Definition flaky_linux_host : Host := {|
  os_architecture := Return ("64bit", "ELF");
  os_system := Return "Linux";
  os_distro_name := Return "Ubuntu";
  os_distro_version := Raise (HostError "CalledProcessError");
  os_distro_id := Return "ubuntu";
  os_win32_ver := Return [EmptyString; EmptyString; EmptyString; EmptyString];
  os_mac_ver :=
    Return (EmptyString, (EmptyString, EmptyString, EmptyString), EmptyString)
|}.

(** * Properties *)

(** ** Strings *)

Lemma app_String (x : Ascii.ascii) (a b : string) :
  String x a +:+ b = String x (a +:+ b).
Proof. done. Qed.

Lemma string_app_assoc (a b c : string) : (a +:+ b) +:+ c = a +:+ b +:+ c.
Proof. induction a as [|x a IH]; [done|]. rewrite !app_String. by f_equal. Qed.

Lemma string_app_nil_r (a : string) : a +:+ EmptyString = a.
Proof. induction a as [|x a IH]; [done|]. rewrite app_String. by f_equal. Qed.

Lemma contains_here (needle post : string) : contains needle (needle +:+ post).
Proof. by exists EmptyString, post. Qed.

Lemma contains_end (needle : string) : contains needle needle.
Proof.
  exists EmptyString, EmptyString.
  change (needle = needle +:+ EmptyString). by rewrite string_app_nil_r.
Qed.

Lemma contains_skip (needle pre hay : string) :
  contains needle hay → contains needle (pre +:+ hay).
Proof.
  intros (p & q & ->). exists (pre +:+ p), q. by rewrite string_app_assoc.
Qed.

Lemma prefixb_spec (p s : string) :
  prefixb p s = true ↔ ∃ post, s = p +:+ post.
Proof.
  revert s. induction p as [|a p IH]; intros s; simpl.
  - split; [intros _; by exists s | done].
  - destruct s as [|b s].
    + split; [done | by intros [post ?]].
    + destruct (Ascii.eqb_spec a b) as [->|Hne].
      * rewrite IH. split; intros [post Hs]; exists post;
          rewrite ?app_String in *; congruence.
      * split; [done | intros [post Hs]; rewrite app_String in Hs; congruence].
Qed.

Lemma containsb_spec (needle hay : string) :
  containsb needle hay = true ↔ contains needle hay.
Proof.
  induction hay as [|b hay IH]; simpl.
  - rewrite orb_false_r, prefixb_spec. split.
    + intros [post ->]. apply contains_here.
    + intros (pre & post & Hs). destruct pre; [by exists post | done].
  - rewrite orb_true_iff, prefixb_spec, IH. split.
    + intros [[post ->] | Hc]; [apply contains_here |].
      by apply (contains_skip _ (String b EmptyString)).
    + intros (pre & post & Hs). destruct pre as [|c pre].
      * left. by exists post.
      * right. exists pre, post. rewrite app_String in Hs. congruence.
Qed.

Lemma not_contains (needle hay : string) :
  containsb needle hay = false → ¬ contains needle hay.
Proof. intros Hb Hc. apply containsb_spec in Hc. congruence. Qed.

Lemma contains_prefix (needle hay : string) :
  prefixb needle hay = true → contains needle hay.
Proof. intros [post ->]%prefixb_spec. apply contains_here. Qed.

(** Every piece of a concatenation is contained in it. *)
Ltac contained :=
  repeat first
    [ apply contains_end
    | apply contains_here
    | apply contains_prefix; reflexivity
    | apply (contains_skip _ _ _) ].

(** ** Truth values *)

Lemma truthy_nonempty (s : string) :
  truthy (Some s) = true ↔ s ≠ EmptyString.
Proof. destruct s; simpl; split; done. Qed.

(** Two fields joined by a space are truthy even when both are empty. *)
Lemma truthy_spaced (a b : string) : truthy (Some (a +:+ " " +:+ b)) = true.
Proof. by destruct a. Qed.

(** So is anything that follows a label. *)
Lemma truthy_labelled (c : Ascii.ascii) (label rest : string) :
  truthy (Some (String c label +:+ rest)) = true.
Proof. done. Qed.

Global Arguments truthy : simpl never.

(** ** Running a computation *)

Lemma bind_Return {A B : Type} (m : M A) (f : A → M B) (w w' : world) (a : A) :
  m w = (Return a, w') → (m ≫= f) w = f a w'.
Proof. unfold mbind, M_bind. by intros ->. Qed.

Lemma bind_Raise {A B : Type} (m : M A) (f : A → M B) (w w' : world) (e : exn) :
  m w = (Raise e, w') → (m ≫= f) w = (Raise e, w').
Proof. unfold mbind, M_bind. by intros ->. Qed.

(** Unfold the operations of the module down to the host's answers. *)
Ltac run :=
  unfold get_system_info, platform.architecture, platform.system,
    platform.win32_ver, platform.mac_ver, distro.name, distro.version,
    distro.id, getitem, load_local, raise, query, mbind, M_bind, mret, M_ret;
  simpl.

Lemma reads_host_ret {A : Type} (a : A) : reads_host (mret a).
Proof. by intros w. Qed.

Lemma reads_host_raise {A : Type} (e : exn) : reads_host (@raise A e).
Proof. by intros w. Qed.

Lemma reads_host_query {A : Type} (q : Host → outcome A) :
  reads_host (query q).
Proof. by intros w. Qed.

Lemma reads_host_bind {A B : Type} (m : M A) (f : A → M B) :
  reads_host m → (∀ a, reads_host (f a)) → reads_host (m ≫= f).
Proof.
  intros Hm Hf w. unfold mbind, M_bind.
  rewrite (Hm w), (Hm {| host := host w; heap := ∅ |}). simpl.
  destruct (m {| host := host w; heap := ∅ |}).1 as [a|e]; [|done].
  apply (Hf a w).
Qed.

Lemma reads_host_getitem (t : list string) (i : nat) :
  reads_host (getitem t i).
Proof.
  unfold getitem. destruct (t !! i); [apply reads_host_ret | apply reads_host_raise].
Qed.

Lemma reads_host_load_local (name : string) (slot : option string) :
  reads_host (load_local name slot).
Proof.
  unfold load_local. destruct slot; [apply reads_host_ret | apply reads_host_raise].
Qed.

Create HintDb reads_host.

#[local] Hint Resolve reads_host_ret reads_host_raise reads_host_query
  reads_host_getitem reads_host_load_local : reads_host.

Ltac reads_host :=
  repeat first
    [ progress auto with reads_host
    | apply reads_host_bind; [|intros ?]
    | match goal with
      | |- reads_host (match ?x with _ => _ end) => destruct x
      end ].

Lemma get_system_info_reads (self : value) : reads_host (get_system_info self).
Proof.
  unfold get_system_info, platform.architecture, platform.system,
    platform.win32_ver, platform.mac_ver, distro.name, distro.version,
    distro.id.
  reads_host.
Qed.

(** [get_system_info] reads the host only and changes nothing. *)
Lemma get_system_info_reads_host (self : value) (w : world) :
  get_system_info self w = (system_info_on (host w), w).
Proof. apply (get_system_info_reads self w). Qed.

(** ** Recognized hosts *)

(** What a Linux host yields: the label, the bit-width and the three
    distribution fields, in this order. *)
Lemma linux_result (self : value) (w : world)
    (bits linkage name version id : string) :
  os_architecture (host w) = Return (bits, linkage) →
  os_system (host w) = Return "Linux" →
  os_distro_name (host w) = Return name →
  os_distro_version (host w) = Return version →
  os_distro_id (host w) = Return id →
  get_system_info self w =
    (Return ("Linux " +:+ bits +:+ " " +:+ name +:+ " " +:+ version
               +:+ " (" +:+ id +:+ ")"), w).
Proof.
  intros Harch Hsys Hname Hversion Hid. run.
  rewrite Harch; simpl. rewrite Hsys; simpl.
  rewrite Hname; simpl. rewrite Hversion; simpl. rewrite Hid; simpl.
  rewrite Hsys; simpl. rewrite Hsys; simpl.
  by rewrite truthy_spaced.
Qed.

(** What a macOS host yields: the label, then fields 0 and 2 of the
    version tuple. *)
Lemma macos_result (self : value) (w : world)
    (bits linkage release machine : string)
    (versioninfo : string * string * string) :
  os_architecture (host w) = Return (bits, linkage) →
  os_system (host w) = Return "Darwin" →
  os_mac_ver (host w) = Return (release, versioninfo, machine) →
  get_system_info self w =
    (Return ("macOS " +:+ release +:+ " " +:+ machine), w).
Proof.
  intros Harch Hsys Hmac. run.
  rewrite Harch; simpl. rewrite Hsys; simpl.
  rewrite Hsys; simpl. rewrite Hsys; simpl. rewrite Hmac; simpl.
  by rewrite truthy_spaced.
Qed.

(** What a Windows host yields when its version tuple has fields 0, 1
    and 4. *)
Lemma windows_result (self : value) (w : world)
    (bits linkage : string) (win_ver : list string) (f0 f1 f4 : string) :
  os_architecture (host w) = Return (bits, linkage) →
  os_system (host w) = Return "Windows" →
  os_win32_ver (host w) = Return win_ver →
  win_ver !! 0 = Some f0 → win_ver !! 1 = Some f1 → win_ver !! 4 = Some f4 →
  get_system_info self w =
    (Return ("Windows " +:+ f0 +:+ " " +:+ f1 +:+ " " +:+ f4), w).
Proof.
  intros Harch Hsys Hwin H0 H1 H4. run.
  rewrite Harch; simpl. rewrite Hsys; simpl.
  rewrite Hsys; simpl. rewrite Hwin; simpl.
  rewrite H0, H1, H4; simpl. rewrite Hsys; simpl.
  by rewrite truthy_spaced.
Qed.

(** A version tuple of at most four fields has no field 4: the lookup
    raises before any result is assembled. *)
Lemma windows_short_tuple (self : value) (w : world)
    (bits linkage : string) (win_ver : list string) :
  os_architecture (host w) = Return (bits, linkage) →
  os_system (host w) = Return "Windows" →
  os_win32_ver (host w) = Return win_ver →
  (length win_ver ≤ 4)%nat →
  get_system_info self w = (Raise IndexError, w).
Proof.
  intros Harch Hsys Hwin Hlen. run.
  rewrite Harch; simpl. rewrite Hsys; simpl.
  rewrite Hsys; simpl. rewrite Hwin; simpl.
  assert (win_ver !! 4 = None) as H4 by (apply lookup_ge_None; lia).
  rewrite H4. by destruct (win_ver !! 0), (win_ver !! 1).
Qed.

(** Neither label applies: no branch assigns [os_info]. *)
Lemma unrecognized_result (self : value) (w : world)
    (bits linkage sys : string) :
  os_architecture (host w) = Return (bits, linkage) →
  os_system (host w) = Return sys →
  sys ≠ "Linux" → sys ≠ "Windows" → sys ≠ "Darwin" →
  get_system_info self w = (Raise (UnboundLocalError "os_info"), w).
Proof.
  intros Harch Hsys HL HW HD. run.
  apply String.eqb_neq in HL, HW, HD.
  rewrite Harch; simpl. rewrite Hsys; simpl. rewrite HL; simpl.
  rewrite Hsys; simpl. rewrite HW; simpl.
  rewrite Hsys; simpl. by rewrite HD.
Qed.

(** ** Whatever is returned is truthy *)

Lemma bind_post {A B : Type} (m : M A) (f : A → M B)
    (Q : outcome B * world → Prop) (w : world) :
  (∀ e w', Q (Raise e, w')) → (∀ a w', Q (f a w')) → Q ((m ≫= f) w).
Proof.
  intros He Hf. unfold mbind, M_bind. destruct (m w) as [[a|e] w']; auto.
Qed.

(** Every assignment to [os_info] starts with a label, so a returned
    string is never empty. *)
Lemma get_system_info_truthy (self : value) (w : world) (s : string) :
  (get_system_info self w).1 = Return s → truthy (Some s) = true.
Proof.
  revert s. unfold get_system_info.
  repeat (apply (bind_post _ _
                   (λ r, ∀ s, r.1 = Return s → truthy (Some s) = true));
          [done | intros ? ?]).
  unfold load_local. intros s.
  repeat case_match; simpl; intros; simplify_eq; apply truthy_labelled.
Qed.

(** ** The reported string, family by family *)

(** C3.  On every simulated Linux host, [get_system_info] returns a
    string that contains "Linux", the architecture bit-width
    [platform.architecture()[0]], and the distribution name, version and
    id answered by [distro]. *)
Theorem linux_host_reports_distribution (self : value) (w : world)
    (bits linkage name version id : string) :
  os_system (host w) = Return "Linux" →
  os_architecture (host w) = Return (bits, linkage) →
  os_distro_name (host w) = Return name →
  os_distro_version (host w) = Return version →
  os_distro_id (host w) = Return id →
  ∃ s, get_system_info self w = (Return s, w) ∧
       contains "Linux" s ∧ contains bits s ∧
       contains name s ∧ contains version s ∧ contains id s.
Proof.
  intros Hsys Harch Hname Hversion Hid. eexists. split.
  - by apply (linux_result self w bits linkage name version id).
  - repeat split; contained.
Qed.

Lemma linux_host_reports_distribution_witness :
  os_system (host (world_on linux_host)) = Return "Linux" ∧
  ∃ s, get_system_info (VRef 1) (world_on linux_host)
         = (Return s, world_on linux_host) ∧
       contains "Linux" s ∧ contains "64bit" s ∧
       contains "Ubuntu" s ∧ contains "22.04" s ∧ contains "ubuntu" s.
Proof.
  split; [reflexivity|].
  apply (linux_host_reports_distribution (VRef 1) (world_on linux_host)
           "64bit" "ELF" "Ubuntu" "22.04" "ubuntu"); reflexivity.
Defined.

(** C4.  On every simulated macOS host, [get_system_info] returns a
    string that contains "macOS" and the fields it takes from
    [platform.mac_ver()], which are fields 0 and 2. *)
Theorem macos_host_reports_version (self : value) (w : world)
    (bits linkage release machine : string)
    (versioninfo : string * string * string) :
  os_system (host w) = Return "Darwin" →
  os_architecture (host w) = Return (bits, linkage) →
  os_mac_ver (host w) = Return (release, versioninfo, machine) →
  ∃ s, get_system_info self w = (Return s, w) ∧
       contains "macOS" s ∧ contains release s ∧ contains machine s.
Proof.
  intros Hsys Harch Hmac. eexists. split.
  - by apply (macos_result self w bits linkage release machine versioninfo).
  - repeat split; contained.
Qed.

Lemma macos_host_reports_version_witness :
  os_system (host (world_on macos_host)) = Return "Darwin" ∧
  ∃ s, get_system_info (VRef 1) (world_on macos_host)
         = (Return s, world_on macos_host) ∧
       contains "macOS" s ∧ contains "13.4" s ∧ contains "arm64" s.
Proof.
  split; [reflexivity|].
  apply (macos_host_reports_version (VRef 1) (world_on macos_host)
           "64bit" EmptyString "13.4" "arm64"
           (EmptyString, EmptyString, EmptyString)); reflexivity.
Defined.

(** C1.  On the Windows host [windows_host], whose version tuple has the
    four fields the standard library reports, no string is returned: the
    lookup of field 4 raises [IndexError]. *)
Theorem windows_host_raises_IndexError :
  os_system windows_host = Return "Windows" ∧
  os_win32_ver windows_host
    = Return ["10"; "10.0.19045"; "SP0"; "Multiprocessor Free"] ∧
  get_system_info (VRef 1) (world_on windows_host)
    = (Raise IndexError, world_on windows_host).
Proof. repeat split. Qed.

(** With a fifth field the Windows branch does what it sets out to do. *)
Lemma windows_host_reports_version (self : value) (w : world)
    (bits linkage : string) (win_ver : list string) (f0 f1 f4 : string) :
  os_system (host w) = Return "Windows" →
  os_architecture (host w) = Return (bits, linkage) →
  os_win32_ver (host w) = Return win_ver →
  win_ver !! 0 = Some f0 → win_ver !! 1 = Some f1 → win_ver !! 4 = Some f4 →
  ∃ s, get_system_info self w = (Return s, w) ∧
       contains "Windows" s ∧ contains f0 s ∧ contains f1 s ∧ contains f4 s.
Proof.
  intros Hsys Harch Hwin H0 H1 H4. eexists. split.
  - by apply (windows_result self w bits linkage win_ver f0 f1 f4).
  - repeat split; contained.
Qed.

(** C2.  On every host whose family is none of "Linux", "Windows" and
    "Darwin", [get_system_info] returns no string: [os_info] is never
    assigned, and reading it raises. *)
Theorem unrecognized_family_returns_no_string (self : value) (w : world)
    (bits linkage sys : string) :
  os_architecture (host w) = Return (bits, linkage) →
  os_system (host w) = Return sys →
  sys ≠ "Linux" → sys ≠ "Windows" → sys ≠ "Darwin" →
  get_system_info self w = (Raise (UnboundLocalError "os_info"), w) ∧
  ∀ s w', get_system_info self w ≠ (Return s, w').
Proof.
  intros Harch Hsys HL HW HD.
  rewrite (unrecognized_result self w bits linkage sys) by done.
  split; [done | congruence].
Qed.

Lemma unrecognized_family_returns_no_string_witness :
  os_system (host (world_on freebsd_host)) = Return "FreeBSD" ∧
  get_system_info (VRef 1) (world_on freebsd_host)
    = (Raise (UnboundLocalError "os_info"), world_on freebsd_host) ∧
  ∀ s w', get_system_info (VRef 1) (world_on freebsd_host) ≠ (Return s, w').
Proof.
  split; [reflexivity|].
  apply (unrecognized_family_returns_no_string (VRef 1)
           (world_on freebsd_host) "64bit" "ELF" "FreeBSD");
    first [reflexivity | discriminate].
Defined.

(** C5, as the code has it.  The result is the family label followed by
    the family's fields; the architecture bit-width is part of it on
    Linux only. *)
Theorem system_info_assembly (self : value) (w : world)
    (bits linkage : string) :
  os_architecture (host w) = Return (bits, linkage) →
  (∀ name version id,
     os_system (host w) = Return "Linux" →
     os_distro_name (host w) = Return name →
     os_distro_version (host w) = Return version →
     os_distro_id (host w) = Return id →
     get_system_info self w =
       (Return ("Linux " +:+ bits +:+ " " +:+ name +:+ " " +:+ version
                  +:+ " (" +:+ id +:+ ")"), w)) ∧
  (∀ win_ver f0 f1 f4,
     os_system (host w) = Return "Windows" →
     os_win32_ver (host w) = Return win_ver →
     win_ver !! 0 = Some f0 → win_ver !! 1 = Some f1 →
     win_ver !! 4 = Some f4 →
     get_system_info self w =
       (Return ("Windows " +:+ f0 +:+ " " +:+ f1 +:+ " " +:+ f4), w)) ∧
  (∀ release versioninfo machine,
     os_system (host w) = Return "Darwin" →
     os_mac_ver (host w) = Return (release, versioninfo, machine) →
     get_system_info self w =
       (Return ("macOS " +:+ release +:+ " " +:+ machine), w)).
Proof.
  intros Harch. repeat split.
  - intros. by apply (linux_result self w bits linkage).
  - intros. by apply (windows_result self w bits linkage win_ver).
  - intros. by apply (macos_result self w bits linkage release machine versioninfo).
Qed.

Lemma system_info_assembly_witness :
  get_system_info (VRef 1) (world_on linux_host)
    = (Return "Linux 64bit Ubuntu 22.04 (ubuntu)", world_on linux_host) ∧
  get_system_info (VRef 1) (world_on windows_host_5)
    = (Return "Windows 10 10.0.19045 Professional", world_on windows_host_5) ∧
  get_system_info (VRef 1) (world_on macos_host)
    = (Return "macOS 13.4 arm64", world_on macos_host).
Proof.
  split; [|split].
  - exact (proj1 (system_info_assembly (VRef 1) (world_on linux_host)
                    "64bit" "ELF" eq_refl)
             "Ubuntu" "22.04" "ubuntu" eq_refl eq_refl eq_refl eq_refl).
  - exact (proj1 (proj2 (system_info_assembly (VRef 1)
                           (world_on windows_host_5) "64bit" "WindowsPE"
                           eq_refl))
             ["10"; "10.0.19045"; "SP0"; "Multiprocessor Free"; "Professional"]
             "10" "10.0.19045" "Professional"
             eq_refl eq_refl eq_refl eq_refl eq_refl).
  - exact (proj2 (proj2 (system_info_assembly (VRef 1) (world_on macos_host)
                           "64bit" EmptyString eq_refl))
             "13.4" (EmptyString, EmptyString, EmptyString) "arm64"
             eq_refl eq_refl).
Defined.

(** C5, as the spec states it, fails: on the macOS host [macos_host] the
    architecture bit-width is "64bit" and the result does not contain
    it. *)
Lemma macos_result_omits_architecture :
  os_system macos_host = Return "Darwin" ∧
  os_architecture macos_host = Return ("64bit", EmptyString) ∧
  get_system_info (VRef 1) (world_on macos_host)
    = (Return "macOS 13.4 arm64", world_on macos_host) ∧
  ¬ contains "64bit" "macOS 13.4 arm64".
Proof. repeat split. by apply not_contains. Qed.

(** ** The lifecycle stubs *)

(** C6.  Apart from [post_prompt] and [get_system_info], every interface
    method is a constant: [can_handle_post_prompt] returns [True], every
    other [can_handle_*] returns [False], and every [on_*], [pre_*],
    [post_*] and [handle_*] stub returns [None]; none of them changes the
    world, so neither its arguments nor the plugin are affected. *)
Theorem lifecycle_stubs_are_inert (self : value) (w : world) :
  can_handle_post_prompt self w = (Return (VBool true), w) ∧
  can_handle_on_response self w = (Return (VBool false), w) ∧
  can_handle_on_planning self w = (Return (VBool false), w) ∧
  can_handle_post_planning self w = (Return (VBool false), w) ∧
  can_handle_pre_instruction self w = (Return (VBool false), w) ∧
  can_handle_on_instruction self w = (Return (VBool false), w) ∧
  can_handle_post_instruction self w = (Return (VBool false), w) ∧
  can_handle_pre_command self w = (Return (VBool false), w) ∧
  can_handle_post_command self w = (Return (VBool false), w) ∧
  (∀ messages model temperature max_tokens,
     can_handle_chat_completion self messages model temperature max_tokens w
       = (Return (VBool false), w)) ∧
  (∀ response args kwargs,
     on_response self response args kwargs w = (Return VNone, w)) ∧
  (∀ prompt messages, on_planning self prompt messages w = (Return VNone, w)) ∧
  (∀ response, post_planning self response w = (Return VNone, w)) ∧
  (∀ messages, pre_instruction self messages w = (Return VNone, w)) ∧
  (∀ messages, on_instruction self messages w = (Return VNone, w)) ∧
  (∀ response, post_instruction self response w = (Return VNone, w)) ∧
  (∀ command_name arguments,
     pre_command self command_name arguments w = (Return VNone, w)) ∧
  (∀ command_name response,
     post_command self command_name response w = (Return VNone, w)) ∧
  (∀ messages model temperature max_tokens,
     handle_chat_completion self messages model temperature max_tokens w
       = (Return VNone, w)).
Proof. repeat split. Qed.

(** ** The prompt hook *)

Lemma add_resource_run (l : loc) (p : PromptGenerator) (r : string) (w : world) :
  heap w !! l = Some (PromptObj p) →
  add_resource (VRef l) r w =
    (Return VNone,
     {| host := host w;
        heap := <[l := PromptObj {| resources := resources p ++ [r];
                                    attributes := attributes p |}]> (heap w) |}).
Proof.
  intros Hl. unfold add_resource, get_heap, put_heap, mbind, M_bind, mret, M_ret.
  simpl. by rewrite Hl.
Qed.

(** An exception of [get_system_info] leaves [post_prompt] the same way,
    before the prompt is touched. *)
Lemma post_prompt_propagates (self prompt : value) (w : world) (e : exn) :
  (get_system_info self w).1 = Raise e →
  post_prompt self prompt w = (Raise e, w).
Proof.
  rewrite get_system_info_reads_host. simpl. intros He.
  unfold post_prompt. apply bind_Raise.
  by rewrite get_system_info_reads_host, He.
Qed.

(** C7, as the code has it.  Whenever [get_system_info] returns a string,
    [post_prompt] returns the very reference it was given; the prompt
    gains exactly one resource, "Shell commands executed on " followed by
    that string, when the string is truthy, and none otherwise; its other
    attributes, every other object of the heap (the plugin among them)
    and the host are as before. *)
Theorem post_prompt_appends_resource (self : value) (l : loc)
    (p : PromptGenerator) (w : world) (os_info : string) :
  heap w !! l = Some (PromptObj p) →
  (get_system_info self w).1 = Return os_info →
  ∃ w', post_prompt self (VRef l) w = (Return (VRef l), w') ∧
        host w' = host w ∧
        (∀ l', l' ≠ l → heap w' !! l' = heap w !! l') ∧
        heap w' !! l = Some (PromptObj {|
          resources := resources p ++
            (if truthy (Some os_info)
             then ["Shell commands executed on " +:+ os_info] else []);
          attributes := attributes p |}).
Proof.
  intros Hl Hinfo.
  rewrite get_system_info_reads_host in Hinfo. simpl in Hinfo.
  unfold post_prompt.
  rewrite (bind_Return _ _ w w os_info)
    by (by rewrite get_system_info_reads_host, Hinfo).
  destruct (truthy (Some os_info)).
  - rewrite (bind_Return _ _ _ _ VNone (add_resource_run l p _ w Hl)).
    eexists. split; [done|]. simpl. split; [done|]. split.
    + intros l' Hne. by rewrite lookup_insert_ne.
    + by rewrite lookup_insert_eq.
  - exists w. split; [done|]. split; [done|]. split; [done|].
    rewrite Hl, app_nil_r. by destruct p.
Qed.

Lemma post_prompt_appends_resource_witness :
  heap (world_on linux_host) !! 2%positive = Some (PromptObj a_prompt) ∧
  (get_system_info (VRef 1) (world_on linux_host)).1
    = Return "Linux 64bit Ubuntu 22.04 (ubuntu)" ∧
  ∃ w', post_prompt (VRef 1) (VRef 2) (world_on linux_host)
          = (Return (VRef 2), w') ∧
        host w' = linux_host ∧
        (∀ l', l' ≠ 2%positive →
               heap w' !! l' = heap (world_on linux_host) !! l') ∧
        heap w' !! 2%positive = Some (PromptObj {|
          resources :=
            ["Internet access for searches and information gathering.";
             "Shell commands executed on Linux 64bit Ubuntu 22.04 (ubuntu)"];
          attributes := [("constraints", ["No user assistance"])] |}).
Proof.
  split; [reflexivity|]. split; [reflexivity|].
  exact (post_prompt_appends_resource (VRef 1) 2 a_prompt
           (world_on linux_host) "Linux 64bit Ubuntu 22.04 (ubuntu)"
           eq_refl eq_refl).
Defined.

(** C7, as the spec states it, fails: on [broken_host], where the
    architecture query raises, [post_prompt] is handed a prompt object
    and does not return it. *)
Lemma post_prompt_raises_on_broken_host :
  heap (world_on broken_host) !! 2%positive = Some (PromptObj a_prompt) ∧
  post_prompt (VRef 1) (VRef 2) (world_on broken_host)
    = (Raise (HostError "OSError"), world_on broken_host) ∧
  ∀ w', post_prompt (VRef 1) (VRef 2) (world_on broken_host)
          ≠ (Return (VRef 2), w').
Proof. repeat split. intros w'. discriminate. Qed.

(** The same happens on a host of an unrecognized family. *)
Example post_prompt_raises_on_freebsd :
  post_prompt (VRef 1) (VRef 2) (world_on freebsd_host)
    = (Raise (UnboundLocalError "os_info"), world_on freebsd_host).
Proof. reflexivity. Qed.

(** ** Exceptions *)

(** A query that fails ends the call with its own exception. *)
Lemma failed_query_propagates (self : value) (w : world) (e : exn) :
  os_architecture (host w) = Raise e ∨
  (is_Return (os_architecture (host w)) ∧ os_system (host w) = Raise e) →
  get_system_info self w = (Raise e, w).
Proof.
  intros [Harch | [Harch Hsys]]; run.
  - by rewrite Harch.
  - destruct (os_architecture (host w)); [|done]. simpl. by rewrite Hsys.
Qed.

(** C8.  On the hosts [freebsd_host] and [windows_host] every query
    answers, and yet [get_system_info] raises: the exceptions are its
    own, from reading the unassigned [os_info] and from the lookup of
    field 4. *)
Theorem raises_though_every_query_answers :
  answers freebsd_host ∧
  get_system_info (VRef 1) (world_on freebsd_host)
    = (Raise (UnboundLocalError "os_info"), world_on freebsd_host) ∧
  answers windows_host ∧
  (get_system_info (VRef 1) (world_on windows_host)).1 = Raise IndexError.
Proof. repeat split. Qed.

(** ** Determinism *)

(** C9.  Two runs in which the seven queries answer alike produce the
    same result, whatever the receiver and the heap of each run. *)
Theorem get_system_info_deterministic (self1 self2 : value) (w1 w2 : world) :
  os_architecture (host w1) = os_architecture (host w2) →
  os_system (host w1) = os_system (host w2) →
  os_distro_name (host w1) = os_distro_name (host w2) →
  os_distro_version (host w1) = os_distro_version (host w2) →
  os_distro_id (host w1) = os_distro_id (host w2) →
  os_win32_ver (host w1) = os_win32_ver (host w2) →
  os_mac_ver (host w1) = os_mac_ver (host w2) →
  (get_system_info self1 w1).1 = (get_system_info self2 w2).1.
Proof.
  intros. rewrite !get_system_info_reads_host. simpl.
  destruct (host w1), (host w2). simpl in *. by subst.
Qed.

Lemma get_system_info_deterministic_witness :
  world_on linux_host ≠ {| host := linux_host; heap := ∅ |} ∧
  (get_system_info (VRef 1) (world_on linux_host)).1
    = (get_system_info VNone {| host := linux_host; heap := ∅ |}).1.
Proof.
  split.
  - intros Heq. apply (f_equal (λ w, heap w !! 1%positive)) in Heq.
    discriminate Heq.
  - apply (get_system_info_deterministic (VRef 1) VNone (world_on linux_host)
             {| host := linux_host; heap := ∅ |}); reflexivity.
Defined.

(** ** Recognized families always assign the result *)

(** A Windows host whose queries answer either reports or fails on the
    lookup of a field. *)
Lemma windows_outcome (self : value) (w : world) (bits linkage : string)
    (win_ver : list string) :
  os_architecture (host w) = Return (bits, linkage) →
  os_system (host w) = Return "Windows" →
  os_win32_ver (host w) = Return win_ver →
  get_system_info self w = (Raise IndexError, w) ∨
  ∃ s, get_system_info self w = (Return s, w) ∧ truthy (Some s) = true.
Proof.
  intros Harch Hsys Hwin.
  destruct (decide (length win_ver ≤ 4)%nat) as [Hshort|Hlong].
  - left. by apply (windows_short_tuple self w bits linkage win_ver).
  - right.
    destruct (lookup_lt_is_Some_2 win_ver 0) as [f0 H0]; [lia|].
    destruct (lookup_lt_is_Some_2 win_ver 1) as [f1 H1]; [lia|].
    destruct (lookup_lt_is_Some_2 win_ver 4) as [f4 H4]; [lia|].
    eexists. split; [|apply truthy_labelled].
    by apply (windows_result self w bits linkage win_ver f0 f1 f4).
Qed.

(** On a blank Linux host the helper string is two spaces and a pair of
    parentheses, and the result is assigned all the same. *)
Example blank_linux_host_result :
  get_system_info (VRef 1) (world_on blank_linux_host)
    = (Return "Linux    ()", world_on blank_linux_host).
Proof. reflexivity. Qed.

(** C10.  Which branch assigns the result is decided by
    [platform.system()] alone, never by what the queried fields hold.  On
    a host of a recognized family whose queries answer:
    - on Linux, whatever the distribution fields hold (the empty string
      included), the helper string is truthy and the Linux branch
      assigns the result, "Linux", the bit-width and the helper string;
    - on macOS, whatever fields 0 and 2 of the version tuple hold, the
      helper string is truthy and the macOS branch assigns the result,
      "macOS" and the helper string;
    - on Windows the call either fails on the lookup of a field, when
      the tuple has at most four, or the Windows branch assigns the
      result, "Windows" and fields 0, 1 and 4;
    so on no such host is [os_info] left unbound. *)
Theorem recognized_family_assigns_result (self : value) (w : world)
    (sys : string) :
  answers (host w) →
  os_system (host w) = Return sys →
  sys = "Linux" ∨ sys = "Windows" ∨ sys = "Darwin" →
  (sys = "Linux" →
   ∃ bits linkage name version id,
     os_architecture (host w) = Return (bits, linkage) ∧
     os_distro_name (host w) = Return name ∧
     os_distro_version (host w) = Return version ∧
     os_distro_id (host w) = Return id ∧
     truthy (Some (name +:+ " " +:+ version +:+ " (" +:+ id +:+ ")")) = true ∧
     get_system_info self w =
       (Return ("Linux " +:+ bits +:+ " "
                  +:+ (name +:+ " " +:+ version +:+ " (" +:+ id +:+ ")")),
        w)) ∧
  (sys = "Darwin" →
   ∃ release versioninfo machine,
     os_mac_ver (host w) = Return (release, versioninfo, machine) ∧
     truthy (Some (release +:+ " " +:+ machine)) = true ∧
     get_system_info self w =
       (Return ("macOS " +:+ (release +:+ " " +:+ machine)), w)) ∧
  (sys = "Windows" →
   ∃ win_ver,
     os_win32_ver (host w) = Return win_ver ∧
     (((length win_ver ≤ 4)%nat ∧
       get_system_info self w = (Raise IndexError, w)) ∨
      (∃ f0 f1 f4,
         win_ver !! 0 = Some f0 ∧ win_ver !! 1 = Some f1 ∧
         win_ver !! 4 = Some f4 ∧
         truthy (Some (f0 +:+ " " +:+ f1 +:+ " " +:+ f4)) = true ∧
         get_system_info self w =
           (Return ("Windows " +:+ (f0 +:+ " " +:+ f1 +:+ " " +:+ f4)),
            w)))) ∧
  (∀ w', get_system_info self w ≠ (Raise (UnboundLocalError "os_info"), w')).
Proof.
  intros (Harch & _ & Hname & Hversion & Hid & Hwin & Hmac) Hsys Hfamily.
  destruct (os_architecture (host w)) as [[bits linkage]|] eqn:Earch; [|done].
  destruct (os_distro_name (host w)) as [name|] eqn:Ename; [|done].
  destruct (os_distro_version (host w)) as [version|] eqn:Eversion; [|done].
  destruct (os_distro_id (host w)) as [id|] eqn:Eid; [|done].
  destruct (os_win32_ver (host w)) as [win_ver|] eqn:Ewin; [|done].
  destruct (os_mac_ver (host w)) as [[[release vi] machine]|] eqn:Emac; [|done].
  destruct Hfamily as [-> | [-> | ->]].
  - rewrite (linux_result self w bits linkage name version id) by done.
    split; [|done]. intros _. exists bits, linkage, name, version, id.
    repeat split. apply truthy_spaced.
  - split; [done|]. split; [done|].
    destruct (decide (length win_ver ≤ 4)%nat) as [Hshort|Hlong].
    + rewrite (windows_short_tuple self w bits linkage win_ver) by done.
      split; [|done]. intros _. exists win_ver. split; [done|]. by left.
    + destruct (lookup_lt_is_Some_2 win_ver 0) as [f0 H0]; [lia|].
      destruct (lookup_lt_is_Some_2 win_ver 1) as [f1 H1]; [lia|].
      destruct (lookup_lt_is_Some_2 win_ver 4) as [f4 H4]; [lia|].
      rewrite (windows_result self w bits linkage win_ver f0 f1 f4) by done.
      split; [|done]. intros _. exists win_ver. split; [done|]. right.
      exists f0, f1, f4. repeat split; try done. apply truthy_spaced.
  - rewrite (macos_result self w bits linkage release machine vi) by done.
    split; [done|]. split; [|done]. intros _. exists release, vi, machine.
    repeat split. apply truthy_spaced.
Qed.

Lemma recognized_family_assigns_result_witness :
  answers blank_linux_host ∧ answers blank_macos_host ∧
  truthy (Some "  ()") = true ∧
  get_system_info (VRef 1) (world_on blank_linux_host)
    = (Return "Linux    ()", world_on blank_linux_host) ∧
  truthy (Some " ") = true ∧
  get_system_info (VRef 1) (world_on blank_macos_host)
    = (Return "macOS  ", world_on blank_macos_host).
Proof.
  assert (answers (host (world_on blank_linux_host))) as Hlinux
    by (repeat split).
  assert (answers (host (world_on blank_macos_host))) as Hmacos
    by (repeat split).
  split; [exact Hlinux|]. split; [exact Hmacos|].
  destruct (recognized_family_assigns_result (VRef 1)
              (world_on blank_linux_host) "Linux" Hlinux eq_refl
              (or_introl eq_refl)) as (HL & _ & _ & _).
  destruct (HL eq_refl)
    as (bits & linkage & name & version & id
        & Ebits & Ename & Eversion & Eid & Htruthy & Hresult).
  injection Ebits as <- <-. injection Ename as <-.
  injection Eversion as <-. injection Eid as <-.
  destruct (recognized_family_assigns_result (VRef 1)
              (world_on blank_macos_host) "Darwin" Hmacos eq_refl
              (or_intror (or_intror eq_refl))) as (_ & HD & _ & _).
  destruct (HD eq_refl)
    as (release & vi & machine & Emac & Htruthy' & Hresult').
  injection Emac as <- <- <-.
  split; [exact Htruthy|]. split; [exact Hresult|].
  split; [exact Htruthy' | exact Hresult'].
Defined.

(** * Further properties of the code *)

(** ** Every call follows one path *)

(** Rewrite with what the host is known to answer. *)
Ltac answer :=
  repeat match goal with
    | H : ?q (host ?w) = _ |- context [?q (host ?w)] => rewrite H; simpl
    end.

Lemma get_system_info_path (self : value) (w : world) :
  system_info_path (host w) (get_system_info self w).1.
Proof.
  destruct (os_architecture (host w)) as [[bits linkage]|e] eqn:Earch.
  2: { rewrite (failed_query_propagates self w e) by auto.
       by apply path_architecture_fails. }
  destruct (os_system (host w)) as [sys|e] eqn:Esys.
  2: { rewrite (failed_query_propagates self w e)
         by (right; by rewrite Earch).
       by eapply path_system_fails. }
  destruct (decide (sys = "Linux")) as [->|HL].
  { destruct (os_distro_name (host w)) as [name|e] eqn:Ename.
    2: { run. answer. by eapply path_distro_name_fails. }
    destruct (os_distro_version (host w)) as [version|e] eqn:Eversion.
    2: { run. answer. by eapply path_distro_version_fails. }
    destruct (os_distro_id (host w)) as [id|e] eqn:Eid.
    2: { run. answer. by eapply path_distro_id_fails. }
    rewrite (linux_result self w bits linkage name version id) by done.
    by apply (path_linux _ (bits, linkage)). }
  destruct (decide (sys = "Windows")) as [->|HW].
  { destruct (os_win32_ver (host w)) as [win_ver|e] eqn:Ewin.
    2: { run. answer. by eapply path_win32_ver_fails. }
    destruct (decide (length win_ver ≤ 4)%nat) as [Hshort|Hlong].
    - rewrite (windows_short_tuple self w bits linkage win_ver) by done.
      by eapply path_windows_short.
    - destruct (lookup_lt_is_Some_2 win_ver 0) as [f0 H0]; [lia|].
      destruct (lookup_lt_is_Some_2 win_ver 1) as [f1 H1]; [lia|].
      destruct (lookup_lt_is_Some_2 win_ver 4) as [f4 H4]; [lia|].
      rewrite (windows_result self w bits linkage win_ver f0 f1 f4) by done.
      by eapply path_windows. }
  destruct (decide (sys = "Darwin")) as [->|HD].
  { destruct (os_mac_ver (host w)) as [[[release vi] machine]|e] eqn:Emac.
    2: { run. answer. by eapply path_mac_ver_fails. }
    rewrite (macos_result self w bits linkage release machine vi) by done.
    by eapply path_macos. }
  rewrite (unrecognized_result self w bits linkage sys) by done.
  by eapply path_unrecognized.
Qed.

(** A host has one outcome only. *)
Lemma system_info_path_functional (h : Host) (o1 o2 : outcome string) :
  system_info_path h o1 → system_info_path h o2 → o1 = o2.
Proof.
  intros H1 H2. inversion H1; inversion H2; subst; try congruence;
    exfalso;
    match goal with
    | Hshort : (length ?t ≤ 4)%nat, H : ?t' !! 4 = Some _ |- _ =>
        assert (t = t') as -> by congruence;
        apply lookup_lt_Some in H; lia
    end.
Qed.

(** A path is also a path of any host that answers the queries asked on
    it in the same way. *)
Lemma system_info_path_transfer (h1 h2 : Host) (sys : string)
    (o : outcome string) :
  os_architecture h1 = os_architecture h2 →
  os_system h1 = Return sys →
  os_system h2 = Return sys →
  (sys = "Linux" →
   os_distro_name h1 = os_distro_name h2 ∧
   os_distro_version h1 = os_distro_version h2 ∧
   os_distro_id h1 = os_distro_id h2) →
  (sys = "Windows" → os_win32_ver h1 = os_win32_ver h2) →
  (sys = "Darwin" → os_mac_ver h1 = os_mac_ver h2) →
  system_info_path h1 o → system_info_path h2 o.
Proof.
  intros Harch Hsys1 Hsys2 Hlinux Hwindows Hdarwin Hpath.
  inversion Hpath; subst; try congruence;
    try match goal with
      | H : os_system h1 = Return ?s |- _ =>
          tryif constr_eq s sys then fail
          else assert (sys = s) as -> by congruence
      end;
    try (destruct (Hlinux eq_refl) as (Hname & Hversion & Hid));
    try (specialize (Hwindows eq_refl));
    try (specialize (Hdarwin eq_refl));
    repeat match goal with
      | Heq : ?q h1 = ?q h2, H : ?q h1 = _ |- _ => rewrite Heq in H
      end;
    eauto using system_info_path.
Qed.

(** ** What [get_system_info] does and does not do *)

(** X1.  [get_system_info] changes nothing: the heap, with the prompt and
    the plugin in it, and the host are the same after the call, whether
    it returns or raises. *)
Theorem get_system_info_changes_nothing (self : value) (w : world) :
  (get_system_info self w).2 = w.
Proof. by rewrite get_system_info_reads_host. Qed.

(** X2.  When [get_system_info] raises, the exception is that of a query
    asked on the way (architecture, system, or a query of the host's own
    family), or [IndexError] on a Windows host whose version tuple has at
    most four fields, or [UnboundLocalError] for [os_info] on a host of
    an unrecognized family. *)
Theorem raised_exception_origin (self : value) (w : world) (e : exn) :
  (get_system_info self w).1 = Raise e →
  os_architecture (host w) = Raise e ∨
  os_system (host w) = Raise e ∨
  (os_system (host w) = Return "Linux" ∧
   (os_distro_name (host w) = Raise e ∨
    os_distro_version (host w) = Raise e ∨
    os_distro_id (host w) = Raise e)) ∨
  (os_system (host w) = Return "Windows" ∧
   os_win32_ver (host w) = Raise e) ∨
  (os_system (host w) = Return "Darwin" ∧
   os_mac_ver (host w) = Raise e) ∨
  (e = IndexError ∧ os_system (host w) = Return "Windows" ∧
   ∃ win_ver, os_win32_ver (host w) = Return win_ver ∧
              (length win_ver ≤ 4)%nat) ∨
  (e = UnboundLocalError "os_info" ∧
   ∃ sys, os_system (host w) = Return sys ∧
          sys ≠ "Linux" ∧ sys ≠ "Windows" ∧ sys ≠ "Darwin").
Proof.
  intros Hraise. pose proof (get_system_info_path self w) as Hpath.
  rewrite Hraise in Hpath. inversion Hpath; subst; eauto 12.
Qed.

Lemma raised_exception_origin_witness :
  (get_system_info (VRef 1) (world_on flaky_linux_host)).1
    = Raise (HostError "CalledProcessError") ∧
  os_system flaky_linux_host = Return "Linux" ∧
  os_distro_version flaky_linux_host = Raise (HostError "CalledProcessError").
Proof.
  split; [reflexivity|].
  destruct (raised_exception_origin (VRef 1) (world_on flaky_linux_host)
              (HostError "CalledProcessError") eq_refl)
    as [H | [H | [[Hsys _] | [[H _] | [[H _] | [[H _] | [H _]]]]]]];
    try discriminate H.
  split; [exact Hsys | reflexivity].
Defined.

(** X3.  A query that fails ends the call with its own exception, in the
    order the queries are asked: architecture first, then the system,
    then, on Linux, the distribution name, version and id, on Windows the
    version tuple, on macOS the version tuple. *)
Theorem failing_query_ends_the_call (self : value) (w : world) (e : exn) :
  (os_architecture (host w) = Raise e →
   get_system_info self w = (Raise e, w)) ∧
  (is_Return (os_architecture (host w)) →
   (os_system (host w) = Raise e →
    get_system_info self w = (Raise e, w)) ∧
   (os_system (host w) = Return "Linux" →
    (os_distro_name (host w) = Raise e →
     get_system_info self w = (Raise e, w)) ∧
    (is_Return (os_distro_name (host w)) →
     (os_distro_version (host w) = Raise e →
      get_system_info self w = (Raise e, w)) ∧
     (is_Return (os_distro_version (host w)) →
      os_distro_id (host w) = Raise e →
      get_system_info self w = (Raise e, w)))) ∧
   (os_system (host w) = Return "Windows" →
    os_win32_ver (host w) = Raise e →
    get_system_info self w = (Raise e, w)) ∧
   (os_system (host w) = Return "Darwin" →
    os_mac_ver (host w) = Raise e →
    get_system_info self w = (Raise e, w))).
Proof.
  split; [intros Harch; run; by answer|].
  destruct (os_architecture (host w)) as [[bits linkage]|] eqn:Earch; [|done].
  intros _. split; [intros Hsys; run; by answer|].
  split; [intros Hsys | split].
  - split; [intros Hname; run; by answer|].
    destruct (os_distro_name (host w)) as [name|] eqn:Ename; [|done].
    intros _. split; [intros Hversion; run; by answer|].
    destruct (os_distro_version (host w)) as [version|] eqn:Eversion; [|done].
    intros _ Hid. run. by answer.
  - intros Hsys Hwin. run. by answer.
  - intros Hsys Hmac. run. by answer.
Qed.

(** X4.  Only the queries of the host's own family are asked: two hosts
    that agree on the architecture and on the system, and on the
    distribution fields if the system is Linux, on the Windows version
    tuple if it is Windows, on the macOS version tuple if it is Darwin,
    give the same result, however the remaining queries answer or
    fail. *)
Theorem only_family_queries_matter (self1 self2 : value) (w1 w2 : world)
    (sys : string) :
  os_architecture (host w1) = os_architecture (host w2) →
  os_system (host w1) = Return sys →
  os_system (host w2) = Return sys →
  (sys = "Linux" →
   os_distro_name (host w1) = os_distro_name (host w2) ∧
   os_distro_version (host w1) = os_distro_version (host w2) ∧
   os_distro_id (host w1) = os_distro_id (host w2)) →
  (sys = "Windows" → os_win32_ver (host w1) = os_win32_ver (host w2)) →
  (sys = "Darwin" → os_mac_ver (host w1) = os_mac_ver (host w2)) →
  (get_system_info self1 w1).1 = (get_system_info self2 w2).1.
Proof.
  intros Harch Hsys1 Hsys2 Hlinux Hwindows Hdarwin.
  apply (system_info_path_functional (host w2)).
  - apply (system_info_path_transfer (host w1) (host w2) sys); try done.
    apply get_system_info_path.
  - apply get_system_info_path.
Qed.

Lemma only_family_queries_matter_witness :
  os_win32_ver linux_host ≠ os_win32_ver bare_linux_host ∧
  os_mac_ver linux_host ≠ os_mac_ver bare_linux_host ∧
  (get_system_info (VRef 1) (world_on linux_host)).1
    = (get_system_info (VRef 1) (world_on bare_linux_host)).1.
Proof.
  split; [discriminate|]. split; [discriminate|].
  apply (only_family_queries_matter (VRef 1) (VRef 1) (world_on linux_host)
           (world_on bare_linux_host) "Linux");
    first [reflexivity | discriminate | by intros _; repeat split].
Defined.

(** ** The Windows version tuple *)

(** X5.  On every Windows host whose version tuple has at most four
    fields, whatever they hold, [get_system_info] raises [IndexError] and
    changes nothing. *)
Theorem windows_tuple_too_short (self : value) (w : world)
    (a : string * string) (win_ver : list string) :
  os_architecture (host w) = Return a →
  os_system (host w) = Return "Windows" →
  os_win32_ver (host w) = Return win_ver →
  (length win_ver ≤ 4)%nat →
  get_system_info self w = (Raise IndexError, w).
Proof.
  intros Harch Hsys Hwin Hlen. destruct a as [bits linkage].
  by apply (windows_short_tuple self w bits linkage win_ver).
Qed.

Lemma windows_tuple_too_short_witness :
  (length ["10"; "10.0.19045"; "SP0"; "Multiprocessor Free"] ≤ 4)%nat ∧
  get_system_info (VRef 1) (world_on windows_host)
    = (Raise IndexError, world_on windows_host).
Proof.
  split; [simpl; lia|].
  apply (windows_tuple_too_short (VRef 1) (world_on windows_host)
           ("64bit", "WindowsPE")
           ["10"; "10.0.19045"; "SP0"; "Multiprocessor Free"]);
    first [reflexivity | simpl; lia].
Defined.

(** X6.  On every Windows host whose version tuple has at least five
    fields, [get_system_info] returns "Windows" followed by fields 0, 1
    and 4 of the tuple; the architecture, fields 2 and 3 and any field
    past the fifth play no part. *)
Theorem windows_tuple_long_enough (self : value) (w : world)
    (a : string * string) (win_ver : list string) :
  os_architecture (host w) = Return a →
  os_system (host w) = Return "Windows" →
  os_win32_ver (host w) = Return win_ver →
  (5 ≤ length win_ver)%nat →
  ∃ f0 f1 f4,
    win_ver !! 0 = Some f0 ∧ win_ver !! 1 = Some f1 ∧ win_ver !! 4 = Some f4 ∧
    get_system_info self w =
      (Return ("Windows " +:+ f0 +:+ " " +:+ f1 +:+ " " +:+ f4), w).
Proof.
  intros Harch Hsys Hwin Hlen. destruct a as [bits linkage].
  destruct (lookup_lt_is_Some_2 win_ver 0) as [f0 H0]; [lia|].
  destruct (lookup_lt_is_Some_2 win_ver 1) as [f1 H1]; [lia|].
  destruct (lookup_lt_is_Some_2 win_ver 4) as [f4 H4]; [lia|].
  exists f0, f1, f4. repeat split; try done.
  by apply (windows_result self w bits linkage win_ver).
Qed.

Lemma windows_tuple_long_enough_witness :
  ∃ f0 f1 f4,
    ["10"; "10.0.19045"; "SP0"; "Multiprocessor Free"; "Professional"] !! 0
      = Some f0 ∧
    ["10"; "10.0.19045"; "SP0"; "Multiprocessor Free"; "Professional"] !! 1
      = Some f1 ∧
    ["10"; "10.0.19045"; "SP0"; "Multiprocessor Free"; "Professional"] !! 4
      = Some f4 ∧
    get_system_info (VRef 1) (world_on windows_host_5) =
      (Return ("Windows " +:+ f0 +:+ " " +:+ f1 +:+ " " +:+ f4),
       world_on windows_host_5).
Proof.
  apply (windows_tuple_long_enough (VRef 1) (world_on windows_host_5)
           ("64bit", "WindowsPE")
           ["10"; "10.0.19045"; "SP0"; "Multiprocessor Free"; "Professional"]);
    first [reflexivity | simpl; lia].
Defined.

(** ** The label of the result *)

(** X7.  A string returned by [get_system_info] starts with the label of
    the host's family: "Linux " when the system is "Linux", "Windows "
    when it is "Windows", "macOS " when it is "Darwin"; no other system
    gets a string. *)
Theorem result_carries_family_label (self : value) (w : world) (s : string) :
  (get_system_info self w).1 = Return s →
  (os_system (host w) = Return "Linux" ∧ ∃ rest, s = "Linux " +:+ rest) ∨
  (os_system (host w) = Return "Windows" ∧ ∃ rest, s = "Windows " +:+ rest) ∨
  (os_system (host w) = Return "Darwin" ∧ ∃ rest, s = "macOS " +:+ rest).
Proof.
  intros Hreturn. pose proof (get_system_info_path self w) as Hpath.
  rewrite Hreturn in Hpath. inversion Hpath; subst; eauto 8.
Qed.

Lemma result_carries_family_label_witness :
  (get_system_info (VRef 1) (world_on macos_host)).1
    = Return "macOS 13.4 arm64" ∧
  os_system macos_host = Return "Darwin" ∧
  ∃ rest, "macOS 13.4 arm64" = "macOS " +:+ rest.
Proof.
  split; [reflexivity|].
  destruct (result_carries_family_label (VRef 1) (world_on macos_host)
              "macOS 13.4 arm64" eq_refl)
    as [[H _] | [[H _] | Hmac]]; [discriminate H | discriminate H | exact Hmac].
Defined.

(** ** More on the prompt hook *)

Lemma post_prompt_run (self : value) (l : loc) (p : PromptGenerator)
    (w : world) (s : string) :
  heap w !! l = Some (PromptObj p) →
  (get_system_info self w).1 = Return s →
  post_prompt self (VRef l) w =
    (Return (VRef l),
     {| host := host w;
        heap := <[l := PromptObj {|
                   resources := resources p
                                  ++ ["Shell commands executed on " +:+ s];
                   attributes := attributes p |}]> (heap w) |}).
Proof.
  intros Hl Hinfo. pose proof (get_system_info_truthy self w s Hinfo) as Ht.
  rewrite get_system_info_reads_host in Hinfo. simpl in Hinfo.
  unfold post_prompt.
  rewrite (bind_Return _ _ w w s)
    by (by rewrite get_system_info_reads_host, Hinfo).
  rewrite Ht.
  by rewrite (bind_Return _ _ _ _ VNone (add_resource_run l p _ w Hl)).
Qed.

Lemma add_resource_not_prompt (prompt : value) (r : string) (w : world) :
  ¬ is_prompt w prompt →
  add_resource prompt r w = (Raise (AttributeError "add_resource"), w).
Proof.
  intros Hnot. unfold add_resource.
  destruct prompt as [| | | | |l]; try done.
  unfold get_heap, put_heap, mbind, M_bind. simpl.
  destruct (heap w !! l) as [[| p | |]|] eqn:Hl; try done.
  destruct Hnot. by exists l, p.
Qed.

(** X8.  The guard of [post_prompt] never skips: whenever [post_prompt]
    returns on a prompt object, it returns that object, [get_system_info]
    had returned some string, and the prompt's resources are the former
    ones followed by exactly one new entry, "Shell commands executed on "
    and that string; nothing else in the world differs. *)
Theorem post_prompt_return_means_appended (self : value) (l : loc)
    (p : PromptGenerator) (w w' : world) (v : value) :
  heap w !! l = Some (PromptObj p) →
  post_prompt self (VRef l) w = (Return v, w') →
  v = VRef l ∧
  ∃ s, (get_system_info self w).1 = Return s ∧
       w' = {| host := host w;
               heap := <[l := PromptObj {|
                          resources := resources p
                            ++ ["Shell commands executed on " +:+ s];
                          attributes := attributes p |}]> (heap w) |}.
Proof.
  intros Hl Hpost.
  destruct (get_system_info self w).1 as [s|e] eqn:Hinfo.
  - rewrite (post_prompt_run self l p w s Hl Hinfo) in Hpost.
    simplify_eq. eauto.
  - by rewrite (post_prompt_propagates self (VRef l) w e Hinfo) in Hpost.
Qed.

Lemma post_prompt_return_means_appended_witness :
  heap (world_on macos_host) !! 2%positive = Some (PromptObj a_prompt) ∧
  ∃ s, (get_system_info (VRef 1) (world_on macos_host)).1 = Return s ∧
       (post_prompt (VRef 1) (VRef 2) (world_on macos_host)).2 =
         {| host := macos_host;
            heap := <[2%positive := PromptObj {|
                       resources := resources a_prompt
                         ++ ["Shell commands executed on " +:+ s];
                       attributes := attributes a_prompt |}]>
                      (heap (world_on macos_host)) |}.
Proof.
  split; [reflexivity|].
  exact (proj2 (post_prompt_return_means_appended (VRef 1) 2 a_prompt
                  (world_on macos_host)
                  (post_prompt (VRef 1) (VRef 2) (world_on macos_host)).2
                  (VRef 2) eq_refl eq_refl)).
Defined.

(** X9.  When [get_system_info] raises, [post_prompt] raises the same
    exception before the prompt is touched: whatever it was handed, the
    world is left as it was and no resource is added. *)
Theorem post_prompt_failure_adds_nothing (self prompt : value) (w : world)
    (e : exn) :
  (get_system_info self w).1 = Raise e →
  post_prompt self prompt w = (Raise e, w).
Proof. apply post_prompt_propagates. Qed.

Lemma post_prompt_failure_adds_nothing_witness :
  (get_system_info (VRef 1) (world_on flaky_linux_host)).1
    = Raise (HostError "CalledProcessError") ∧
  post_prompt (VRef 1) (VRef 2) (world_on flaky_linux_host)
    = (Raise (HostError "CalledProcessError"), world_on flaky_linux_host).
Proof.
  split; [reflexivity|].
  apply (post_prompt_failure_adds_nothing (VRef 1) (VRef 2)
           (world_on flaky_linux_host)). reflexivity.
Defined.

(** X10.  Handed anything that is not a prompt object ([None], a string,
    the plugin itself, a list, a dangling reference), [post_prompt]
    raises [AttributeError] for [add_resource] once [get_system_info] has
    returned, and leaves the world as it was. *)
Theorem post_prompt_needs_a_prompt (self prompt : value) (w : world)
    (s : string) :
  ¬ is_prompt w prompt →
  (get_system_info self w).1 = Return s →
  post_prompt self prompt w = (Raise (AttributeError "add_resource"), w).
Proof.
  intros Hnot Hinfo. pose proof (get_system_info_truthy self w s Hinfo) as Ht.
  rewrite get_system_info_reads_host in Hinfo. simpl in Hinfo.
  unfold post_prompt.
  rewrite (bind_Return _ _ w w s)
    by (by rewrite get_system_info_reads_host, Hinfo).
  rewrite Ht.
  by rewrite (bind_Raise _ _ _ _ _ (add_resource_not_prompt prompt _ w Hnot)).
Qed.

Lemma post_prompt_needs_a_prompt_witness :
  ¬ is_prompt (world_on linux_host) (VRef 1) ∧
  post_prompt (VRef 1) (VRef 1) (world_on linux_host)
    = (Raise (AttributeError "add_resource"), world_on linux_host).
Proof.
  assert (¬ is_prompt (world_on linux_host) (VRef 1)) as Hnot.
  { intros (l & p & Hv & Hl). injection Hv as <-. discriminate Hl. }
  split; [exact Hnot|].
  exact (post_prompt_needs_a_prompt (VRef 1) (VRef 1) (world_on linux_host)
           "Linux 64bit Ubuntu 22.04 (ubuntu)" Hnot eq_refl).
Defined.

(** X11.  [post_prompt] does not look at what the prompt already holds:
    called twice on the same prompt it appends the same resource twice. *)
Theorem post_prompt_twice_appends_twice (self : value) (l : loc)
    (p : PromptGenerator) (w : world) (s : string) :
  heap w !! l = Some (PromptObj p) →
  (get_system_info self w).1 = Return s →
  (post_prompt self (VRef l) ≫= λ prompt, post_prompt self prompt) w =
    (Return (VRef l),
     {| host := host w;
        heap := <[l := PromptObj {|
                   resources := resources p
                     ++ ["Shell commands executed on " +:+ s;
                         "Shell commands executed on " +:+ s];
                   attributes := attributes p |}]> (heap w) |}).
Proof.
  intros Hl Hinfo.
  rewrite (bind_Return _ _ _ _ _ (post_prompt_run self l p w s Hl Hinfo)).
  rewrite (post_prompt_run self l
             {| resources := resources p
                               ++ ["Shell commands executed on " +:+ s];
                attributes := attributes p |} _ s).
  - simpl. by rewrite insert_insert_eq, <- app_assoc.
  - simpl. by rewrite lookup_insert_eq.
  - rewrite get_system_info_reads_host in Hinfo |- *. done.
Qed.

Lemma post_prompt_twice_appends_twice_witness :
  heap (world_on linux_host) !! 2%positive = Some (PromptObj a_prompt) ∧
  heap ((post_prompt (VRef 1) (VRef 2) ≫= λ prompt, post_prompt (VRef 1) prompt)
          (world_on linux_host)).2 !! 2%positive =
    Some (PromptObj {|
      resources :=
        ["Internet access for searches and information gathering.";
         "Shell commands executed on Linux 64bit Ubuntu 22.04 (ubuntu)";
         "Shell commands executed on Linux 64bit Ubuntu 22.04 (ubuntu)"];
      attributes := [("constraints", ["No user assistance"])] |}).
Proof.
  split; [reflexivity|].
  rewrite (post_prompt_twice_appends_twice (VRef 1) 2 a_prompt
             (world_on linux_host) "Linux 64bit Ubuntu 22.04 (ubuntu)"
             eq_refl eq_refl).
  reflexivity.
Defined.

(** X12.  On a Windows host whose version tuple has at most four fields,
    as the standard library's has, the hook itself fails: [post_prompt]
    raises [IndexError] whatever it is handed, and adds nothing. *)
Theorem post_prompt_fails_on_short_windows_tuple (self prompt : value)
    (w : world) (a : string * string) (win_ver : list string) :
  os_architecture (host w) = Return a →
  os_system (host w) = Return "Windows" →
  os_win32_ver (host w) = Return win_ver →
  (length win_ver ≤ 4)%nat →
  post_prompt self prompt w = (Raise IndexError, w).
Proof.
  intros Harch Hsys Hwin Hlen. destruct a as [bits linkage].
  apply post_prompt_propagates.
  by rewrite (windows_short_tuple self w bits linkage win_ver).
Qed.

Lemma post_prompt_fails_on_short_windows_tuple_witness :
  os_system windows_host = Return "Windows" ∧
  post_prompt (VRef 1) (VRef 2) (world_on windows_host)
    = (Raise IndexError, world_on windows_host).
Proof.
  split; [reflexivity|].
  apply (post_prompt_fails_on_short_windows_tuple (VRef 1) (VRef 2)
           (world_on windows_host) ("64bit", "WindowsPE")
           ["10"; "10.0.19045"; "SP0"; "Multiprocessor Free"]);
    first [reflexivity | simpl; lia].
Defined.

(** X13.  On a host of an unrecognized family the hook fails as well:
    [post_prompt] raises [UnboundLocalError] for [os_info] whatever it is
    handed, and adds nothing; its guard on an empty result is never
    reached. *)
Theorem post_prompt_fails_on_unrecognized_family (self prompt : value)
    (w : world) (a : string * string) (sys : string) :
  os_architecture (host w) = Return a →
  os_system (host w) = Return sys →
  sys ≠ "Linux" → sys ≠ "Windows" → sys ≠ "Darwin" →
  post_prompt self prompt w = (Raise (UnboundLocalError "os_info"), w).
Proof.
  intros Harch Hsys HL HW HD. destruct a as [bits linkage].
  apply post_prompt_propagates.
  by rewrite (unrecognized_result self w bits linkage sys).
Qed.

Lemma post_prompt_fails_on_unrecognized_family_witness :
  os_system freebsd_host = Return "FreeBSD" ∧
  post_prompt (VRef 1) (VRef 2) (world_on freebsd_host)
    = (Raise (UnboundLocalError "os_info"), world_on freebsd_host).
Proof.
  split; [reflexivity|].
  apply (post_prompt_fails_on_unrecognized_family (VRef 1) (VRef 2)
           (world_on freebsd_host) ("64bit", "ELF") "FreeBSD");
    first [reflexivity | discriminate].
Defined.
